(** * spot_driver.launch.py: the launch description of the Spot driver

    A shallow embedding of [spot_driver/launch/spot_driver.launch.py] and the
    properties of the topology it assembles: which camera sources exist, how
    the depth-registration mode and the point-cloud request are read from the
    launch arguments, which composable nodes are created and how their topics
    are remapped.

    Python [str] values are modelled by [string], read as the bytes of the
    text, and [str.lower] acts on the ASCII letters: no character outside
    ASCII lower-cases to a letter of the words the launch file compares
    with.  [os.path.join] is the POSIX one (ROS 2 on Linux). *)

From Stdlib Require Import Bool List Arith Lia.
From Stdlib Require Import Strings.Ascii Strings.String.
Import ListNotations.

Open Scope string_scope.
Open Scope list_scope.

Set Warnings "-register-all".

(** ** Python strings *)

Module Py.

(** [str.lower] on one character: 'A'..'Z' move to 'a'..'z'. *)
Definition lower_char (c : ascii) : ascii :=
  let n := nat_of_ascii c in
  if ((65 <=? n)%nat && (n <=? 90)%nat) then ascii_of_nat (n + 32) else c.

(** [s.lower()] *)
Fixpoint lower (s : string) : string :=
  match s with
  | EmptyString => EmptyString
  | String c s' => String (lower_char c) (lower s')
  end.

(** Truth value of a string: [bool(s)], false only for the empty string. *)
Definition truthy (s : string) : bool :=
  match s with
  | EmptyString => false
  | String _ _ => true
  end.

(** [s.startswith("/")] *)
Definition startswith_sep (s : string) : bool :=
  match s with
  | String c _ => Ascii.eqb c "/"
  | EmptyString => false
  end.

(** [s.endswith("/")] *)
Fixpoint endswith_sep (s : string) : bool :=
  match s with
  | EmptyString => false
  | String c EmptyString => Ascii.eqb c "/"
  | String _ s' => endswith_sep s'
  end.

(** The loop of [posixpath.join(a, *p)]: a component that starts with the
    separator replaces the path built so far; a component is appended
    directly when the path is empty or already ends with the separator, and
    after a separator otherwise. *)
Fixpoint join_loop (path : string) (p : list string) : string :=
  match p with
  | [] => path
  | b :: p' =>
      join_loop
        (if startswith_sep b then b
         else if negb (truthy path) || endswith_sep path then path ++ b
         else path ++ "/" ++ b)
        p'
  end.

(** [os.path.join(a, *p)] *)
Definition os_path_join (a : string) (p : list string) : string :=
  join_loop a p.

(** Evaluate a list of fallible results in order, failing at the first
    failure (a raised exception aborts the enclosing list comprehension). *)
Fixpoint sequence {A : Type} (l : list (option A)) : option (list A) :=
  match l with
  | [] => Some []
  | None :: _ => None
  | Some x :: l' =>
      match sequence l' with
      | Some xs => Some (x :: xs)
      | None => None
      end
  end.

End Py.

(** ** The launch framework, as far as the launch file uses it *)

(** [launch.LaunchContext]: the values of the launch configurations and the
    two look-ups in the host environment that substitutions perform.  Every
    launch configuration read below is declared with a default value by
    [generate_launch_description], so reading one always yields a string;
    finding an executable or a package can fail. *)
Record LaunchContext := {
  launch_configurations : string -> string;
  which : string -> option string;
  find_package_share : string -> option string
}.

(** [LaunchConfiguration(variable_name)] *)
Record LaunchConfiguration := { variable_name : string }.

(** [LaunchConfiguration.perform(context)] *)
Definition perform_configuration
    (context : LaunchContext) (lc : LaunchConfiguration) : string :=
  launch_configurations context (variable_name lc).

(** Substitutions: a plain [str] in a substitution list is a
    [TextSubstitution]. *)
Inductive Substitution :=
| TextSubstitution (text : string)
| Configuration (lc : LaunchConfiguration)
| PathJoinSubstitution (substitutions : list Substitution)
| FindExecutable (name : string)
| FindPackageShare (package : string).

(** [Substitution.perform(context)].  A [PathJoinSubstitution] performs its
    components and hands them to [os.path.join], which raises a [TypeError]
    when there is none. *)
Fixpoint perform (context : LaunchContext) (s : Substitution) : option string :=
  match s with
  | TextSubstitution text => Some text
  | Configuration lc => Some (perform_configuration context lc)
  | PathJoinSubstitution substitutions =>
      match Py.sequence (map (perform context) substitutions) with
      | Some (a :: p) => Some (Py.os_path_join a p)
      | _ => None
      end
  | FindExecutable name => which context name
  | FindPackageShare package => find_package_share context package
  end.

(** [PathJoinSubstitution([s1, ..., sn]).perform(context)] for plain strings
    [s1 .. sn], as the nodelet builders call it: the components are texts,
    and the source passes at least one. *)
Definition path_join (parts : list string) : string :=
  match parts with
  | [] => ""
  | a :: p => Py.os_path_join a p
  end.

(** [launch_ros.descriptions.ComposableNode] *)
Record ComposableNode := {
  package : string;
  plugin : string;
  name : string;
  namespace : string;
  remappings : list (string * string)
}.

(** Values of a parameter dictionary. *)
Inductive ParameterValue :=
| PString (s : string)
| PBool (b : bool)
| Command (command : list Substitution).

(** One entry of a node's [parameters] list: a parameter file or a
    dictionary. *)
Inductive Parameters :=
| ParameterFile (file : LaunchConfiguration)
| ParameterDict (entries : list (string * ParameterValue)).

(** The actions the launch file adds to the launch description. *)
Inductive Action :=
| Node (node_package node_executable : string) (node_name : option string)
       (output : string) (parameters : list Parameters)
       (node_namespace : string)
| IncludeLaunchDescription
       (launch_description_source : list Substitution)
       (launch_arguments : list (string * string))
       (condition : LaunchConfiguration)
| ComposableNodeContainer
       (container_name container_namespace : string)
       (container_package container_executable : string)
       (container_output : string)
       (composable_node_descriptions : list ComposableNode).

(** [launch.LaunchDescription]: the entities added so far, in order. *)
Definition LaunchDescription := list Action.

(** [ld.add_action(action)] *)
Definition add_action (ld : LaunchDescription) (a : Action) : LaunchDescription :=
  ld ++ [a].

(** ** The launch file *)

(** The enumeration of line 26; its three members have different values,
    so they are three different objects and [is] compares them. *)
Inductive DepthRegisteredMode :=
| DISABLE
| FROM_SPOT
| FROM_NODELETS.

Definition DepthRegisteredMode_eqb (a b : DepthRegisteredMode) : bool :=
  match a, b with
  | DISABLE, DISABLE | FROM_SPOT, FROM_SPOT | FROM_NODELETS, FROM_NODELETS => true
  | _, _ => false
  end.

(** The test of line 34: [has_arm.perform(context) == "true" or
    has_arm.perform(context) == "True"]. *)
Definition has_arm_is_true (context : LaunchContext) (has_arm : LaunchConfiguration) : bool :=
  (perform_configuration context has_arm =? "true")
  || (perform_configuration context has_arm =? "True").

Definition get_camera_sources
    (context : LaunchContext) (has_arm : LaunchConfiguration) : list string :=
  let camera_sources := ["frontleft"; "frontright"; "left"; "right"; "back"] in
  if has_arm_is_true context has_arm
  then camera_sources ++ ["hand"]
  else camera_sources.

(** The body of the loop of [create_depth_registration_nodelets]. *)
Definition register_node (spot_name camera : string) : ComposableNode :=
  {| package := "depth_image_proc";
     plugin := "depth_image_proc::RegisterNode";
     name := "register_node_" ++ camera;
     namespace := spot_name;
     remappings :=
       [ ("depth/image_rect", path_join ["depth"; camera; "image"]);
         ("depth/camera_info", path_join ["depth"; camera; "camera_info"]);
         ("rgb/camera_info", path_join ["camera"; camera; "camera_info"]);
         ("depth_registered/image_rect",
           path_join ["depth_registered"; camera; "image"]);
         ("depth_registered/camera_info",
           path_join ["depth_registered"; camera; "camera_info"]) ] |}.

(** [for camera in cameras: composable_node_descriptions.append(node(camera))],
    starting from the empty list. *)
Definition for_each_camera
    (node : string -> ComposableNode) (cameras : list string) : list ComposableNode :=
  fold_left (fun composable_node_descriptions camera =>
               composable_node_descriptions ++ [node camera])
            cameras [].

Definition create_depth_registration_nodelets
    (context : LaunchContext) (spot_name : string)
    (has_arm : LaunchConfiguration) : list ComposableNode :=
  for_each_camera (register_node spot_name) (get_camera_sources context has_arm).

(** The body of the loop of [create_point_cloud_nodelets]. *)
Definition point_cloud_xyzrgb_node (spot_name camera : string) : ComposableNode :=
  {| package := "depth_image_proc";
     plugin := "depth_image_proc::PointCloudXyzrgbNode";
     name := "point_cloud_xyzrgb_node_" ++ camera;
     namespace := spot_name;
     remappings :=
       [ ("rgb/camera_info", path_join ["camera"; camera; "camera_info"]);
         ("rgb/image_rect_color", path_join ["camera"; camera; "image"]);
         ("depth_registered/image_rect",
           path_join ["depth_registered"; camera; "image"]);
         ("points", path_join ["depth_registered"; camera; "points"]) ] |}.

Definition create_point_cloud_nodelets
    (context : LaunchContext) (spot_name : string)
    (has_arm : LaunchConfiguration) : list ComposableNode :=
  for_each_camera (point_cloud_xyzrgb_node spot_name)
                  (get_camera_sources context has_arm).

(** *** [launch_setup]

    The values [launch_setup] computes on its way, each under the name of the
    local variable that holds it. *)

(** Lines 124-131, on the lower-cased argument. *)
Definition depth_registered_mode_of_string
    (depth_registered_mode_string : string) : DepthRegisteredMode :=
  if depth_registered_mode_string =? "from_spot" then FROM_SPOT
  else if depth_registered_mode_string =? "from_nodelets" then FROM_NODELETS
  else if depth_registered_mode_string =? "disable" then DISABLE
  else DISABLE.

(** Lines 123-131 for the raw value of the launch argument. *)
Definition resolve_mode (raw : string) : DepthRegisteredMode :=
  depth_registered_mode_of_string (Py.lower raw).

Definition depth_registered_mode (context : LaunchContext) : DepthRegisteredMode :=
  resolve_mode
    (perform_configuration context {| variable_name := "depth_registered_mode" |}).

(** Line 133: [True if raw.lower() == "true" else False]. *)
Definition point_clouds_requested (raw : string) : bool :=
  if Py.lower raw =? "true" then true else false.

(** Lines 134-135: the request is dropped when the mode is [DISABLE]. *)
Definition resolve_point_cloud_policy
    (requested : bool) (mode : DepthRegisteredMode) : bool :=
  match mode with
  | DISABLE => false
  | _ => requested
  end.

Definition publish_point_clouds (context : LaunchContext) : bool :=
  resolve_point_cloud_policy
    (point_clouds_requested
       (perform_configuration context {| variable_name := "publish_point_clouds" |}))
    (depth_registered_mode context).

Definition spot_name (context : LaunchContext) : string :=
  perform_configuration context {| variable_name := "spot_name" |}.

(** Line 137: the parameters every configuration gives the driver. *)
Definition base_driver_params (context : LaunchContext) : list Parameters :=
  [ ParameterFile {| variable_name := "config_file" |};
    ParameterDict [("spot_name", PString (spot_name context))] ].

(** Lines 137-140. *)
Definition spot_driver_params (context : LaunchContext) : list Parameters :=
  if negb (DepthRegisteredMode_eqb (depth_registered_mode context) FROM_SPOT)
  then base_driver_params context
         ++ [ParameterDict [("publish_depth_registered", PBool false)]]
  else base_driver_params context.

(** Lines 117 and 152-153: the [tf_prefix] handed to xacro. *)
Definition default_tf_prefix (tf_prefix spot_name : string) : Substitution :=
  if negb (Py.truthy tf_prefix) && Py.truthy spot_name
  then PathJoinSubstitution [TextSubstitution spot_name; TextSubstitution ""]
  else TextSubstitution tf_prefix.

Definition tf_prefix (context : LaunchContext) : Substitution :=
  default_tf_prefix
    (perform_configuration context {| variable_name := "tf_prefix" |})
    (spot_name context).

(** Line 113: [has_arm = LaunchConfiguration("has_arm")]. *)
Definition has_arm_config : LaunchConfiguration := {| variable_name := "has_arm" |}.

(** Lines 155-168. *)
Definition robot_description
    (context : LaunchContext) (pkg_share : string) : ParameterValue :=
  Command
    [ PathJoinSubstitution [FindExecutable "xacro"];
      TextSubstitution " ";
      PathJoinSubstitution
        [TextSubstitution pkg_share; TextSubstitution "urdf";
         TextSubstitution "spot.urdf.xacro"];
      TextSubstitution " ";
      TextSubstitution "arm:=";
      Configuration has_arm_config;
      TextSubstitution " ";
      TextSubstitution "tf_prefix:=";
      tf_prefix context;
      TextSubstitution " " ].

(** Lines 193-197. *)
Definition composable_node_descriptions_of
    (context : LaunchContext) : list ComposableNode :=
  (if DepthRegisteredMode_eqb (depth_registered_mode context) FROM_NODELETS
   then create_depth_registration_nodelets context (spot_name context) has_arm_config
   else [])
  ++ (if publish_point_clouds context
      then create_point_cloud_nodelets context (spot_name context) has_arm_config
      else []).

Definition spot_driver_node (context : LaunchContext) : Action :=
  Node "spot_driver" "spot_ros2" (Some "spot_ros2") "screen"
       (spot_driver_params context) (spot_name context).

Definition robot_state_publisher
    (context : LaunchContext) (pkg_share : string) : Action :=
  Node "robot_state_publisher" "robot_state_publisher" None "screen"
       [ParameterDict [("robot_description", robot_description context pkg_share)]]
       (spot_name context).

Definition rviz (context : LaunchContext) : Action :=
  IncludeLaunchDescription
    [FindPackageShare "spot_driver"; TextSubstitution "/launch";
     TextSubstitution "/rviz.launch.py"]
    [ ("spot_name", spot_name context);
      ("rviz_config_file",
        perform_configuration context {| variable_name := "rviz_config_file" |}) ]
    {| variable_name := "launch_rviz" |}.

Definition container (context : LaunchContext) : Action :=
  ComposableNodeContainer "container" (spot_name context)
    "rclcpp_components" "component_container_mt" "screen"
    (composable_node_descriptions_of context).

(** [launch_setup(context, ld)]: the launch description after the four
    actions were added, or [None] when the share directory of
    [spot_description] is not found (line 121 raises before anything is
    added). *)
Definition launch_setup
    (context : LaunchContext) (ld : LaunchDescription) : option LaunchDescription :=
  match find_package_share context "spot_description" with
  | None => None
  | Some pkg_share =>
      let ld := add_action ld (spot_driver_node context) in
      let ld := add_action ld (robot_state_publisher context pkg_share) in
      let ld := add_action ld (rviz context) in
      let ld := add_action ld (container context) in
      Some ld
  end.

(** *** [generate_launch_description]: the declared launch arguments *)

Record DeclareLaunchArgument := {
  argument_name : string;
  default_value : string
}.

Definition launch_args : list DeclareLaunchArgument :=
  [ {| argument_name := "config_file"; default_value := "" |};
    {| argument_name := "has_arm"; default_value := "False" |};
    {| argument_name := "tf_prefix"; default_value := "" |};
    {| argument_name := "launch_rviz"; default_value := "False" |};
    {| argument_name := "rviz_config_file"; default_value := "" |};
    {| argument_name := "depth_registered_mode"; default_value := "from_nodelets" |};
    {| argument_name := "publish_point_clouds"; default_value := "false" |};
    {| argument_name := "spot_name"; default_value := "" |} ].

Fixpoint assoc (key : string) (l : list (string * string)) : option string :=
  match l with
  | [] => None
  | (k, v) :: l' => if k =? key then Some v else assoc key l'
  end.

(** The launch configurations of a run started with the arguments [given]:
    a given value, else the declared default. *)
Definition configurations_of (given : list (string * string)) (key : string) : string :=
  match assoc key given with
  | Some v => v
  | None =>
      match assoc key (map (fun a => (argument_name a, default_value a)) launch_args) with
      | Some d => d
      | None => ""
      end
  end.

(** A context for the arguments [given], on a host where xacro and the
    packages are installed. *)
Definition context_of (given : list (string * string)) : LaunchContext :=
  {| launch_configurations := configurations_of given;
     which := fun exe => Some ("/usr/bin/" ++ exe)%string;
     find_package_share := fun pkg => Some ("/opt/ros/share/" ++ pkg)%string |}.

(** ** Vocabulary of the specification *)

(** The specification calls the two plugins by kind. *)
Inductive ComponentKind :=
| RegisterDepth
| PointCloudXYZRGB.

Definition kind (d : ComposableNode) : option ComponentKind :=
  if plugin d =? "depth_image_proc::RegisterNode" then Some RegisterDepth
  else if plugin d =? "depth_image_proc::PointCloudXyzrgbNode" then Some PointCloudXYZRGB
  else None.

Definition is_kind (k : ComponentKind) (d : ComposableNode) : bool :=
  match kind d, k with
  | Some RegisterDepth, RegisterDepth => true
  | Some PointCloudXYZRGB, PointCloudXYZRGB => true
  | _, _ => false
  end.

(** The registration descriptor of a camera, in the words of the
    specification (section 4.4). *)
Definition spec_register_descriptor (ns camera : string) : ComposableNode :=
  {| package := "depth_image_proc";
     plugin := "depth_image_proc::RegisterNode";
     name := "register_node_" ++ camera;
     namespace := ns;
     remappings :=
       [ ("depth/image_rect", ("depth/" ++ camera ++ "/image")%string);
         ("depth/camera_info", ("depth/" ++ camera ++ "/camera_info")%string);
         ("rgb/camera_info", ("camera/" ++ camera ++ "/camera_info")%string);
         ("depth_registered/image_rect", ("depth_registered/" ++ camera ++ "/image")%string);
         ("depth_registered/camera_info",
           ("depth_registered/" ++ camera ++ "/camera_info")%string) ] |}.

(** The point-cloud descriptor of a camera, in the words of the
    specification (section 4.5). *)
Definition spec_point_cloud_descriptor (ns camera : string) : ComposableNode :=
  {| package := "depth_image_proc";
     plugin := "depth_image_proc::PointCloudXyzrgbNode";
     name := "point_cloud_xyzrgb_node_" ++ camera;
     namespace := ns;
     remappings :=
       [ ("rgb/camera_info", ("camera/" ++ camera ++ "/camera_info")%string);
         ("rgb/image_rect_color", ("camera/" ++ camera ++ "/image")%string);
         ("depth_registered/image_rect", ("depth_registered/" ++ camera ++ "/image")%string);
         ("points", ("depth_registered/" ++ camera ++ "/points")%string) ] |}.

(** A list of strings without repetition, decided. *)
Fixpoint distinct (l : list string) : bool :=
  match l with
  | [] => true
  | x :: l' => negb (existsb (String.eqb x) l') && distinct l'
  end.

(** The descriptors of a list whose name is [n]. *)
Definition named (n : string) (l : list ComposableNode) : list ComposableNode :=
  filter (fun d => name d =? n) l.

(** ** Reading the assembled description *)

(** [launch.utilities.perform_substitutions]: the substitutions performed in
    order and their texts concatenated.  For the substitutions of a
    [Command] this is the text of the command line, which the launch system
    then splits into words and runs; running it is not modelled. *)
Definition perform_substitutions
    (context : LaunchContext) (subs : list Substitution) : option string :=
  match Py.sequence (map (perform context) subs) with
  | Some texts => Some (String.concat "" texts)
  | None => None
  end.

(** The substitutions of a [Command] value. *)
Definition command_substitutions (v : ParameterValue) : list Substitution :=
  match v with
  | Command command => command
  | _ => []
  end.

(** The external topics of a node: the second components of its
    remappings. *)
Definition external_topics (d : ComposableNode) : list string :=
  map snd (remappings d).

(** The internal names of a node: the first components of its remappings. *)
Definition internal_names (d : ComposableNode) : list string :=
  map fst (remappings d).

(** The namespaces an action names: its own, and those of the composable
    nodes of a container. *)
Definition action_namespaces (a : Action) : list string :=
  match a with
  | Node _ _ _ _ _ node_namespace => [node_namespace]
  | IncludeLaunchDescription _ _ _ => []
  | ComposableNodeContainer _ container_namespace _ _ _ descriptions =>
      container_namespace :: map namespace descriptions
  end.

(** The launch configurations [launch_setup] creates in lines 112-119. *)
Definition launch_setup_configurations : list string :=
  [ "config_file"; "has_arm"; "launch_rviz"; "rviz_config_file"; "spot_name";
    "tf_prefix"; "depth_registered_mode"; "publish_point_clouds" ].

(** The parameter entry of line 140. *)
Definition publish_depth_registered_false : Parameters :=
  ParameterDict [("publish_depth_registered", PBool false)].

(** ** Strings *)

Section StringFacts.

Lemma append_empty_r (s : string) : (s ++ "")%string = s.
Proof. induction s as [|c s IH]; simpl; [reflexivity | now rewrite IH]. Qed.

Lemma truthy_false_iff (s : string) : Py.truthy s = false <-> s = "".
Proof. destruct s; simpl; split; intro H; congruence. Qed.

Lemma truthy_true_iff (s : string) : Py.truthy s = true <-> s <> "".
Proof. destruct s; simpl; split; intro H; congruence. Qed.

Lemma existsb_eqb_In (x : string) (l : list string) :
  existsb (String.eqb x) l = true <-> In x l.
Proof.
  rewrite existsb_exists. split.
  - intros [y [Hin Heq]]. apply String.eqb_eq in Heq. now subst.
  - intro Hin. exists x. split; [assumption | apply String.eqb_refl].
Qed.

Lemma distinct_NoDup (l : list string) : distinct l = true -> NoDup l.
Proof.
  induction l as [|x l IH]; simpl; intro H.
  - constructor.
  - apply andb_true_iff in H. destruct H as [Hx Hl].
    constructor; [|now apply IH].
    intro Hin. apply existsb_eqb_In in Hin.
    rewrite Hin in Hx. discriminate.
Qed.

(** Joining one empty component: the path gets a trailing separator unless
    it has one. *)
Lemma os_path_join_empty (a : string) :
  Py.truthy a = true ->
  Py.os_path_join a [""] = if Py.endswith_sep a then a else (a ++ "/")%string.
Proof.
  intro Ha. unfold Py.os_path_join. simpl. rewrite Ha. simpl.
  destruct (Py.endswith_sep a).
  - apply append_empty_r.
  - reflexivity.
Qed.

End StringFacts.

(** Which characters lower-case to a given lower-case letter: by cases on the
    eight bits of the character. *)
Ltac by_bits c :=
  let H := fresh "H" in
  destruct c as [[] [] [] [] [] [] [] []]; vm_compute;
  split; intro H;
  try discriminate H;
  try (destruct H as [H|H]; discriminate H);
  try reflexivity;
  try (left; reflexivity);
  try (right; reflexivity).

Section LowerFacts.

Open Scope char_scope.

Lemma lower_char_t c : Py.lower_char c = "t" <-> c = "t" \/ c = "T".
Proof. by_bits c. Qed.

Lemma lower_char_r c : Py.lower_char c = "r" <-> c = "r" \/ c = "R".
Proof. by_bits c. Qed.

Lemma lower_char_u c : Py.lower_char c = "u" <-> c = "u" \/ c = "U".
Proof. by_bits c. Qed.

Lemma lower_char_e c : Py.lower_char c = "e" <-> c = "e" \/ c = "E".
Proof. by_bits c. Qed.

(** The strings that lower-case to "true" are the sixteen casings of it. *)
Lemma lower_true_iff (s : string) :
  Py.lower s = "true"%string <->
  exists c1 c2 c3 c4,
    s = String c1 (String c2 (String c3 (String c4 EmptyString)))
    /\ (c1 = "t" \/ c1 = "T") /\ (c2 = "r" \/ c2 = "R")
    /\ (c3 = "u" \/ c3 = "U") /\ (c4 = "e" \/ c4 = "E").
Proof.
  split.
  - destruct s as [|c1 [|c2 [|c3 [|c4 [|c5 s]]]]]; simpl; intro H;
      try discriminate H.
    injection H as H1 H2 H3 H4.
    exists c1, c2, c3, c4. split; [reflexivity|].
    rewrite <- lower_char_t, <- lower_char_r, <- lower_char_u, <- lower_char_e.
    auto.
  - intros (c1 & c2 & c3 & c4 & -> & H1 & H2 & H3 & H4). simpl.
    apply lower_char_t in H1. apply lower_char_r in H2.
    apply lower_char_u in H3. apply lower_char_e in H4.
    now rewrite H1, H2, H3, H4.
Qed.

End LowerFacts.

(** ** Camera sources *)

Lemma has_arm_is_true_iff (context : LaunchContext) (has_arm : LaunchConfiguration) :
  has_arm_is_true context has_arm = true <->
  perform_configuration context has_arm = "true"
  \/ perform_configuration context has_arm = "True".
Proof.
  unfold has_arm_is_true. rewrite orb_true_iff, !String.eqb_eq. reflexivity.
Qed.

Lemma get_camera_sources_NoDup
    (context : LaunchContext) (has_arm : LaunchConfiguration) :
  NoDup (get_camera_sources context has_arm).
Proof.
  unfold get_camera_sources.
  destruct (has_arm_is_true context has_arm); apply distinct_NoDup; reflexivity.
Qed.

(** C4: the camera sources are the five body cameras in the fixed order
    frontleft, frontright, left, right, back when the arm test fails, and the
    same five followed by hand when it succeeds: five, respectively six,
    pairwise different names, whatever the context. *)
Theorem get_camera_sources_enumeration
    (context : LaunchContext) (has_arm : LaunchConfiguration) :
  get_camera_sources context has_arm =
    (if has_arm_is_true context has_arm
     then ["frontleft"; "frontright"; "left"; "right"; "back"; "hand"]
     else ["frontleft"; "frontright"; "left"; "right"; "back"])
  /\ get_camera_sources context has_arm =
       ["frontleft"; "frontright"; "left"; "right"; "back"]
         ++ (if has_arm_is_true context has_arm then ["hand"] else [])
  /\ List.length (get_camera_sources context has_arm) =
       (if has_arm_is_true context has_arm then 6 else 5)
  /\ NoDup (get_camera_sources context has_arm).
Proof.
  unfold get_camera_sources.
  destruct (has_arm_is_true context has_arm) eqn:Harm; simpl;
    repeat split;
    (pose proof (get_camera_sources_NoDup context has_arm) as H;
     unfold get_camera_sources in H; rewrite Harm in H; exact H).
Qed.

(** ** Boolean launch arguments *)

(** C9: [has_arm] counts as true exactly for the two spellings "true" and
    "True"; [publish_point_clouds] counts as true exactly when its lower-cased
    value is "true", that is for each of the sixteen casings of the word.
    "TRUE" and "tRue" give an arm-less robot but request point clouds; "1" and
    "false" are false for both. *)
Theorem boolean_coercions_asymmetric
    (context : LaunchContext) (has_arm : LaunchConfiguration) (raw : string) :
  (has_arm_is_true context has_arm = true <->
     perform_configuration context has_arm = "true"
     \/ perform_configuration context has_arm = "True")
  /\ (point_clouds_requested raw = true <-> Py.lower raw = "true")
  /\ (point_clouds_requested raw = true <->
        exists c1 c2 c3 c4,
          raw = String c1 (String c2 (String c3 (String c4 EmptyString)))
          /\ (c1 = "t" \/ c1 = "T")%char /\ (c2 = "r" \/ c2 = "R")%char
          /\ (c3 = "u" \/ c3 = "U")%char /\ (c4 = "e" \/ c4 = "E")%char)
  /\ map (fun v => has_arm_is_true (context_of [("has_arm", v)]) has_arm_config)
         ["true"; "True"; "TRUE"; "tRue"; "1"; "false"; ""]
       = [true; true; false; false; false; false; false]
  /\ map point_clouds_requested
         ["true"; "True"; "TRUE"; "tRue"; "1"; "false"; ""]
       = [true; true; true; true; false; false; false].
Proof.
  assert (Hreq : point_clouds_requested raw = true <-> Py.lower raw = "true").
  { unfold point_clouds_requested.
    destruct (String.eqb_spec (Py.lower raw) "true") as [E|E];
      split; intro H; congruence. }
  split; [apply has_arm_is_true_iff|].
  split; [exact Hreq|].
  split; [rewrite Hreq; apply lower_true_iff|].
  split; reflexivity.
Qed.

(** ** Depth-registration mode *)

Lemma depth_registered_mode_of_string_eq (s : string) :
  depth_registered_mode_of_string s =
    if s =? "from_spot" then FROM_SPOT
    else if s =? "from_nodelets" then FROM_NODELETS
    else DISABLE.
Proof.
  unfold depth_registered_mode_of_string.
  destruct (s =? "from_spot"); [reflexivity|].
  destruct (s =? "from_nodelets"); [reflexivity|].
  destruct (s =? "disable"); reflexivity.
Qed.

(** The chain of comparisons, as a function of the string it is given. *)
Lemma depth_registered_mode_of_string_cases (s : string) :
  (depth_registered_mode_of_string s = FROM_SPOT <-> s = "from_spot")
  /\ (depth_registered_mode_of_string s = FROM_NODELETS <-> s = "from_nodelets")
  /\ (depth_registered_mode_of_string s = DISABLE <->
        s <> "from_spot" /\ s <> "from_nodelets").
Proof.
  rewrite depth_registered_mode_of_string_eq.
  destruct (String.eqb_spec s "from_spot") as [E1|E1];
    [| destruct (String.eqb_spec s "from_nodelets") as [E2|E2]].
  - repeat split; try congruence; try discriminate. intros [H _]. congruence.
  - rewrite E2. repeat split; try congruence; try discriminate.
    intros [_ H]. congruence.
  - repeat split; try congruence; try discriminate.
Qed.

(** C2, as the claim words it, fails: the argument is lower-cased before it
    is matched, so a recognized word in another casing is not among the
    strings that resolve to [DISABLE].  "FROM_SPOT" and "From_Nodelets"
    differ from the three lower-case words and resolve to [FROM_SPOT] and
    [FROM_NODELETS]. *)
Lemma resolve_mode_casing_counterexample :
  "FROM_SPOT" <> "from_spot"
  /\ "FROM_SPOT" <> "from_nodelets"
  /\ "FROM_SPOT" <> "disable"
  /\ Py.lower "FROM_SPOT" = "from_spot"
  /\ resolve_mode "FROM_SPOT" = FROM_SPOT
  /\ resolve_mode "FROM_SPOT" <> DISABLE
  /\ "From_Nodelets" <> "from_nodelets"
  /\ Py.lower "From_Nodelets" = "from_nodelets"
  /\ resolve_mode "From_Nodelets" = FROM_NODELETS
  /\ resolve_mode "From_Nodelets" <> DISABLE.
Proof. repeat split; try reflexivity; discriminate. Qed.

(** C2, amended: mode resolution is a total function of the raw string that
    depends on its lower-cased form only.  The resolved mode is [FROM_SPOT]
    exactly when the lower-cased argument is "from_spot" (the word in any
    casing), [FROM_NODELETS] exactly when it is "from_nodelets" (the word in
    any casing), and [DISABLE] for every other argument: "disable" in any
    casing, the empty string, and every string whose lower-cased form is
    not a recognized word.  No argument fails. *)
Theorem resolve_mode_total (raw : string) :
  resolve_mode raw = depth_registered_mode_of_string (Py.lower raw)
  /\ (exists mode, resolve_mode raw = mode)
  /\ (resolve_mode raw = FROM_SPOT <-> Py.lower raw = "from_spot")
  /\ (resolve_mode raw = FROM_NODELETS <-> Py.lower raw = "from_nodelets")
  /\ (resolve_mode raw = DISABLE <->
        Py.lower raw <> "from_spot" /\ Py.lower raw <> "from_nodelets")
  /\ (Py.lower raw = "disable" -> resolve_mode raw = DISABLE)
  /\ map resolve_mode
         ["from_spot"; "from_nodelets"; "disable";
          "From_Spot"; "FROM_SPOT"; "From_Nodelets"; "FROM_NODELETS";
          "Disable"; "DISABLE";
          ""; "unexpected"; "from-spot"; " from_spot"]
       = [FROM_SPOT; FROM_NODELETS; DISABLE;
          FROM_SPOT; FROM_SPOT; FROM_NODELETS; FROM_NODELETS;
          DISABLE; DISABLE;
          DISABLE; DISABLE; DISABLE; DISABLE].
Proof.
  split; [reflexivity|].
  split; [eexists; reflexivity|].
  unfold resolve_mode.
  destruct (depth_registered_mode_of_string_cases (Py.lower raw)) as (H1 & H2 & H3).
  repeat (split; [assumption|]).
  split; [|reflexivity].
  intro Hdisable. apply H3. rewrite Hdisable. split; discriminate.
Qed.

(** A mixed casing of the disabling word. *)
Lemma resolve_mode_total_witness :
  Py.lower "DisAble" = "disable" /\ resolve_mode "DisAble" = DISABLE.
Proof.
  split; [reflexivity|].
  destruct (resolve_mode_total "DisAble") as (_ & _ & _ & _ & _ & H & _).
  exact (H eq_refl).
Defined.

(** ** Point-cloud policy *)

Lemma for_each_camera_from
    (node : string -> ComposableNode) (cameras : list string)
    (acc : list ComposableNode) :
  fold_left (fun composable_node_descriptions camera =>
               composable_node_descriptions ++ [node camera])
            cameras acc
  = acc ++ map node cameras.
Proof.
  revert acc. induction cameras as [|camera cameras IH]; intro acc; simpl.
  - now rewrite app_nil_r.
  - rewrite IH, <- app_assoc. reflexivity.
Qed.

(** The loop appends one node per camera, in the order of the cameras. *)
Lemma for_each_camera_map
    (node : string -> ComposableNode) (cameras : list string) :
  for_each_camera node cameras = map node cameras.
Proof. unfold for_each_camera. now rewrite for_each_camera_from. Qed.

(** C1: the resolved point-cloud policy is the request and-ed with "the mode
    is not DISABLE", for every request and mode and so for every context;
    under [DISABLE] it is false whatever was requested, and the container of
    such a context holds no PointCloudXyzrgbNode. *)
Theorem policy_is_request_and_enabled
    (context : LaunchContext) (requested : bool) (mode : DepthRegisteredMode) :
  resolve_point_cloud_policy requested mode =
    requested && negb (DepthRegisteredMode_eqb mode DISABLE)
  /\ resolve_point_cloud_policy requested DISABLE = false
  /\ publish_point_clouds context =
       point_clouds_requested
         (perform_configuration context {| variable_name := "publish_point_clouds" |})
       && negb (DepthRegisteredMode_eqb (depth_registered_mode context) DISABLE)
  /\ (depth_registered_mode context = DISABLE ->
      publish_point_clouds context = false
      /\ filter (is_kind PointCloudXYZRGB) (composable_node_descriptions_of context) = []
      /\ forall d, In d (composable_node_descriptions_of context) ->
                   kind d <> Some PointCloudXYZRGB).
Proof.
  split; [|split; [|split]].
  - destruct mode, requested; reflexivity.
  - reflexivity.
  - unfold publish_point_clouds.
    destruct (depth_registered_mode context), (point_clouds_requested _); reflexivity.
  - intro Hmode.
    assert (Hnil : composable_node_descriptions_of context = []).
    { unfold composable_node_descriptions_of, publish_point_clouds.
      rewrite Hmode. reflexivity. }
    rewrite Hnil. unfold publish_point_clouds. rewrite Hmode.
    repeat split. intros d [].
Qed.

(** A launch with point clouds requested and depth registration disabled. *)
Lemma policy_is_request_and_enabled_witness :
  let context :=
    context_of [("depth_registered_mode", "disable"); ("publish_point_clouds", "true")] in
  point_clouds_requested
    (perform_configuration context {| variable_name := "publish_point_clouds" |}) = true
  /\ depth_registered_mode context = DISABLE
  /\ publish_point_clouds context = false
  /\ filter (is_kind PointCloudXYZRGB) (composable_node_descriptions_of context) = [].
Proof.
  intro context.
  split; [reflexivity|]. split; [reflexivity|].
  destruct (policy_is_request_and_enabled context true DISABLE) as (_ & _ & _ & H).
  destruct (H eq_refl) as (H1 & H2 & _).
  split; assumption.
Defined.

(** ** Driver parameters *)

(** C3, as the claim words it, fails: under [FROM_SPOT] the driver gets the
    base parameters only.  No [publish_depth_registered] entry is added, so
    the list is not the base list plus an entry of value true. *)
Lemma spot_driver_params_counterexample :
  let context := context_of [("depth_registered_mode", "from_spot")] in
  depth_registered_mode context = FROM_SPOT
  /\ spot_driver_params context = base_driver_params context
  /\ List.length (spot_driver_params context) = 2
  /\ spot_driver_params context <>
       base_driver_params context
         ++ [ParameterDict [("publish_depth_registered", PBool true)]].
Proof.
  cbv zeta. repeat split; try reflexivity. discriminate.
Qed.

(** C3, amended: the driver's parameter list is the base parameters (the
    configuration file and the robot's name), followed by the single entry
    [publish_depth_registered = false] exactly when the mode is not
    [FROM_SPOT]; under [FROM_SPOT] nothing is added, and in no case is an
    entry of value true added. *)
Theorem spot_driver_params_spec (context : LaunchContext) :
  spot_driver_params context =
    base_driver_params context
      ++ (if DepthRegisteredMode_eqb (depth_registered_mode context) FROM_SPOT
          then []
          else [ParameterDict [("publish_depth_registered", PBool false)]])
  /\ base_driver_params context =
       [ ParameterFile {| variable_name := "config_file" |};
         ParameterDict [("spot_name", PString (spot_name context))] ]
  /\ ~ In (ParameterDict [("publish_depth_registered", PBool true)])
          (spot_driver_params context).
Proof.
  unfold spot_driver_params.
  destruct (DepthRegisteredMode_eqb (depth_registered_mode context) FROM_SPOT); simpl.
  - repeat split.
    intros [H|[H|[]]]; discriminate H.
  - repeat split.
    intros [H|[H|[H|[]]]]; discriminate H.
Qed.

(** ** Component builders *)

Lemma DepthRegisteredMode_eqb_eq (a b : DepthRegisteredMode) :
  DepthRegisteredMode_eqb a b = true <-> a = b.
Proof. destruct a, b; simpl; split; intro H; congruence. Qed.

Lemma is_kind_true_iff (k : ComponentKind) (d : ComposableNode) :
  is_kind k d = true <-> kind d = Some k.
Proof.
  unfold is_kind. destruct (kind d) as [[]|], k; split; intro H; congruence.
Qed.

Lemma camera_cases (context : LaunchContext) (has_arm : LaunchConfiguration)
    (camera : string) :
  In camera (get_camera_sources context has_arm) ->
  In camera ["frontleft"; "frontright"; "left"; "right"; "back"; "hand"].
Proof.
  unfold get_camera_sources.
  destruct (has_arm_is_true context has_arm); simpl; intuition.
Qed.

(** For every camera the loop body of the registration builder is the
    descriptor of the specification: the paths joined by
    [PathJoinSubstitution] are the segments separated by single slashes. *)
Lemma register_node_spec (context : LaunchContext) (has_arm : LaunchConfiguration)
    (ns camera : string) :
  In camera (get_camera_sources context has_arm) ->
  register_node ns camera = spec_register_descriptor ns camera.
Proof.
  intro H. apply camera_cases in H. simpl in H.
  repeat (destruct H as [<-|H]; [reflexivity|]). destruct H.
Qed.

Lemma point_cloud_xyzrgb_node_spec
    (context : LaunchContext) (has_arm : LaunchConfiguration) (ns camera : string) :
  In camera (get_camera_sources context has_arm) ->
  point_cloud_xyzrgb_node ns camera = spec_point_cloud_descriptor ns camera.
Proof.
  intro H. apply camera_cases in H. simpl in H.
  repeat (destruct H as [<-|H]; [reflexivity|]). destruct H.
Qed.

Lemma create_depth_registration_nodelets_map
    (context : LaunchContext) (ns : string) (has_arm : LaunchConfiguration) :
  create_depth_registration_nodelets context ns has_arm =
    map (spec_register_descriptor ns) (get_camera_sources context has_arm).
Proof.
  unfold create_depth_registration_nodelets. rewrite for_each_camera_map.
  apply map_ext_in. intros camera H. now apply register_node_spec with context has_arm.
Qed.

Lemma create_point_cloud_nodelets_map
    (context : LaunchContext) (ns : string) (has_arm : LaunchConfiguration) :
  create_point_cloud_nodelets context ns has_arm =
    map (spec_point_cloud_descriptor ns) (get_camera_sources context has_arm).
Proof.
  unfold create_point_cloud_nodelets. rewrite for_each_camera_map.
  apply map_ext_in. intros camera H.
  now apply point_cloud_xyzrgb_node_spec with context has_arm.
Qed.

Lemma is_kind_register (k : ComponentKind) (ns camera : string) :
  is_kind k (spec_register_descriptor ns camera) =
    match k with RegisterDepth => true | PointCloudXYZRGB => false end.
Proof. destruct k; reflexivity. Qed.

Lemma is_kind_point_cloud (k : ComponentKind) (ns camera : string) :
  is_kind k (spec_point_cloud_descriptor ns camera) =
    match k with RegisterDepth => false | PointCloudXYZRGB => true end.
Proof. destruct k; reflexivity. Qed.

(** Filtering a built list by kind keeps all of it or nothing. *)
Lemma filter_kind_register (k : ComponentKind) (ns : string) (cameras : list string) :
  filter (is_kind k) (map (spec_register_descriptor ns) cameras) =
    match k with
    | RegisterDepth => map (spec_register_descriptor ns) cameras
    | PointCloudXYZRGB => []
    end.
Proof.
  induction cameras as [|camera cameras IH]; [destruct k; reflexivity|].
  cbn [map filter]. rewrite is_kind_register, IH. destruct k; reflexivity.
Qed.

Lemma filter_kind_point_cloud (k : ComponentKind) (ns : string) (cameras : list string) :
  filter (is_kind k) (map (spec_point_cloud_descriptor ns) cameras) =
    match k with
    | RegisterDepth => []
    | PointCloudXYZRGB => map (spec_point_cloud_descriptor ns) cameras
    end.
Proof.
  induction cameras as [|camera cameras IH]; [destruct k; reflexivity|].
  cbn [map filter]. rewrite is_kind_point_cloud, IH. destruct k; reflexivity.
Qed.

(** The container's list, with the two loops unfolded. *)
Lemma composable_node_descriptions_of_eq (context : LaunchContext) :
  composable_node_descriptions_of context =
    (if DepthRegisteredMode_eqb (depth_registered_mode context) FROM_NODELETS
     then map (spec_register_descriptor (spot_name context))
              (get_camera_sources context has_arm_config)
     else [])
    ++ (if publish_point_clouds context
        then map (spec_point_cloud_descriptor (spot_name context))
                 (get_camera_sources context has_arm_config)
        else []).
Proof.
  unfold composable_node_descriptions_of.
  rewrite create_depth_registration_nodelets_map, create_point_cloud_nodelets_map.
  reflexivity.
Qed.

Lemma filter_kind_descriptions (k : ComponentKind) (context : LaunchContext) :
  filter (is_kind k) (composable_node_descriptions_of context) =
    match k with
    | RegisterDepth =>
        if DepthRegisteredMode_eqb (depth_registered_mode context) FROM_NODELETS
        then create_depth_registration_nodelets context (spot_name context) has_arm_config
        else []
    | PointCloudXYZRGB =>
        if publish_point_clouds context
        then create_point_cloud_nodelets context (spot_name context) has_arm_config
        else []
    end.
Proof.
  rewrite composable_node_descriptions_of_eq, filter_app.
  rewrite create_depth_registration_nodelets_map, create_point_cloud_nodelets_map.
  destruct (DepthRegisteredMode_eqb (depth_registered_mode context) FROM_NODELETS),
           (publish_point_clouds context);
    rewrite ?filter_kind_register, ?filter_kind_point_cloud;
    destruct k; simpl; rewrite ?app_nil_r; reflexivity.
Qed.

Lemma get_camera_sources_frontleft
    (context : LaunchContext) (has_arm : LaunchConfiguration) :
  In "frontleft" (get_camera_sources context has_arm).
Proof.
  unfold get_camera_sources.
  destruct (has_arm_is_true context has_arm); left; reflexivity.
Qed.

(** Exactly one descriptor of a built list carries the name of a camera of
    the sequence. *)
Lemma named_once (context : LaunchContext) (has_arm : LaunchConfiguration)
    (node : string -> ComposableNode) (prefix camera : string) :
  (forall c, name (node c) = (prefix ++ c)%string) ->
  In camera (get_camera_sources context has_arm) ->
  named (prefix ++ camera) (map node (get_camera_sources context has_arm)) =
    [node camera].
Proof.
  intros Hname Hin. unfold named.
  assert (Hfilter : forall l, NoDup l -> In camera l ->
            filter (fun d => name d =? (prefix ++ camera)%string) (map node l)
            = [node camera]).
  { induction l as [|c l IH]; intros Hnd Hl; [destruct Hl|].
    inversion Hnd as [|? ? Hnotin Hnd']; subst. simpl. rewrite Hname.
    destruct (String.eqb_spec (prefix ++ c) (prefix ++ camera)) as [E|E].
    - assert (c = camera) as ->.
      { clear -E. induction prefix as [|a p IHp]; simpl in E;
          [assumption | injection E as E; auto]. }
      f_equal.
      clear -Hnotin Hname. induction l as [|c l IH]; [reflexivity|].
      simpl. rewrite Hname.
      destruct (String.eqb_spec (prefix ++ c) (prefix ++ camera)) as [E|E].
      + exfalso. apply Hnotin. left.
        clear -E. induction prefix as [|a p IHp]; simpl in E;
          [assumption | injection E as E; auto].
      + apply IH. intro H. apply Hnotin. now right.
    - destruct Hl as [->|Hl]; [congruence|]. now apply IH. }
  apply Hfilter; [|assumption].
  apply get_camera_sources_NoDup.
Qed.

(** C5: the registration builder yields, for the cameras of the sequence in
    their order, the descriptor of the specification: kind RegisterDepth,
    name register_node_<camera>, and the five remappings to
    depth/<camera>/image, depth/<camera>/camera_info,
    camera/<camera>/camera_info, depth_registered/<camera>/image and
    depth_registered/<camera>/camera_info; exactly one descriptor of its
    output carries a camera's name.  The container holds these descriptors
    if and only if the mode is FROM_NODELETS. *)
Theorem depth_registration_descriptors
    (context : LaunchContext) (ns : string) (has_arm : LaunchConfiguration) :
  create_depth_registration_nodelets context ns has_arm =
    map (spec_register_descriptor ns) (get_camera_sources context has_arm)
  /\ (forall camera, In camera (get_camera_sources context has_arm) ->
        named ("register_node_" ++ camera)
              (create_depth_registration_nodelets context ns has_arm)
          = [spec_register_descriptor ns camera]
        /\ kind (spec_register_descriptor ns camera) = Some RegisterDepth
        /\ List.length (remappings (spec_register_descriptor ns camera)) = 5)
  /\ filter (is_kind RegisterDepth) (composable_node_descriptions_of context) =
       (if DepthRegisteredMode_eqb (depth_registered_mode context) FROM_NODELETS
        then create_depth_registration_nodelets context (spot_name context) has_arm_config
        else [])
  /\ (forall d,
        In d (composable_node_descriptions_of context) /\ kind d = Some RegisterDepth
        <-> depth_registered_mode context = FROM_NODELETS
            /\ In d (create_depth_registration_nodelets
                       context (spot_name context) has_arm_config))
  /\ ((exists d, In d (composable_node_descriptions_of context)
                 /\ kind d = Some RegisterDepth)
      <-> depth_registered_mode context = FROM_NODELETS).
Proof.
  assert (Hfilter := filter_kind_descriptions RegisterDepth context).
  cbv beta iota in Hfilter.
  assert (Hiff : forall d,
             In d (composable_node_descriptions_of context) /\ kind d = Some RegisterDepth
             <-> depth_registered_mode context = FROM_NODELETS
                 /\ In d (create_depth_registration_nodelets
                            context (spot_name context) has_arm_config)).
  { intro d. rewrite <- is_kind_true_iff, <- filter_In, Hfilter.
    rewrite <- DepthRegisteredMode_eqb_eq.
    destruct (DepthRegisteredMode_eqb (depth_registered_mode context) FROM_NODELETS);
      simpl; intuition congruence. }
  split; [apply create_depth_registration_nodelets_map|].
  split; [|split; [exact Hfilter|split; [exact Hiff|]]].
  - intros camera Hin. rewrite create_depth_registration_nodelets_map.
    split; [|split; reflexivity].
    apply (named_once context has_arm (spec_register_descriptor ns) "register_node_");
      [reflexivity | assumption].
  - split.
    + intros [d Hd]. now apply Hiff in Hd.
    + intro Hmode.
      exists (spec_register_descriptor (spot_name context) "frontleft").
      apply Hiff. split; [assumption|].
      rewrite create_depth_registration_nodelets_map. apply in_map.
      apply get_camera_sources_frontleft.
Qed.

(** The remappings of frontleft's registration node, in a default launch of
    a robot named spot1. *)
Lemma depth_registration_descriptors_witness :
  let context := context_of [("spot_name", "spot1")] in
  In "frontleft" (get_camera_sources context has_arm_config)
  /\ named "register_node_frontleft"
           (create_depth_registration_nodelets context "spot1" has_arm_config)
     = [ {| package := "depth_image_proc";
            plugin := "depth_image_proc::RegisterNode";
            name := "register_node_frontleft";
            namespace := "spot1";
            remappings :=
              [ ("depth/image_rect", "depth/frontleft/image");
                ("depth/camera_info", "depth/frontleft/camera_info");
                ("rgb/camera_info", "camera/frontleft/camera_info");
                ("depth_registered/image_rect", "depth_registered/frontleft/image");
                ("depth_registered/camera_info",
                  "depth_registered/frontleft/camera_info") ] |} ].
Proof.
  intro context.
  assert (Hin : In "frontleft" (get_camera_sources context has_arm_config))
    by (left; reflexivity).
  split; [exact Hin|].
  destruct (depth_registration_descriptors context "spot1" has_arm_config)
    as (_ & H & _).
  destruct (H "frontleft" Hin) as (Hnamed & _).
  exact Hnamed.
Defined.

(** C6: the point-cloud builder yields, for the cameras of the sequence in
    their order, the descriptor of the specification: kind PointCloudXYZRGB,
    name point_cloud_xyzrgb_node_<camera>, and the four remappings to
    camera/<camera>/camera_info, camera/<camera>/image,
    depth_registered/<camera>/image and depth_registered/<camera>/points;
    exactly one descriptor of its output carries a camera's name.  The
    container holds these descriptors if and only if the resolved point-cloud
    policy is true. *)
Theorem point_cloud_descriptors
    (context : LaunchContext) (ns : string) (has_arm : LaunchConfiguration) :
  create_point_cloud_nodelets context ns has_arm =
    map (spec_point_cloud_descriptor ns) (get_camera_sources context has_arm)
  /\ (forall camera, In camera (get_camera_sources context has_arm) ->
        named ("point_cloud_xyzrgb_node_" ++ camera)
              (create_point_cloud_nodelets context ns has_arm)
          = [spec_point_cloud_descriptor ns camera]
        /\ kind (spec_point_cloud_descriptor ns camera) = Some PointCloudXYZRGB
        /\ List.length (remappings (spec_point_cloud_descriptor ns camera)) = 4)
  /\ filter (is_kind PointCloudXYZRGB) (composable_node_descriptions_of context) =
       (if publish_point_clouds context
        then create_point_cloud_nodelets context (spot_name context) has_arm_config
        else [])
  /\ (forall d,
        In d (composable_node_descriptions_of context) /\ kind d = Some PointCloudXYZRGB
        <-> publish_point_clouds context = true
            /\ In d (create_point_cloud_nodelets
                       context (spot_name context) has_arm_config))
  /\ ((exists d, In d (composable_node_descriptions_of context)
                 /\ kind d = Some PointCloudXYZRGB)
      <-> publish_point_clouds context = true).
Proof.
  assert (Hfilter := filter_kind_descriptions PointCloudXYZRGB context).
  cbv beta iota in Hfilter.
  assert (Hiff : forall d,
             In d (composable_node_descriptions_of context)
             /\ kind d = Some PointCloudXYZRGB
             <-> publish_point_clouds context = true
                 /\ In d (create_point_cloud_nodelets
                            context (spot_name context) has_arm_config)).
  { intro d. rewrite <- is_kind_true_iff, <- filter_In, Hfilter.
    destruct (publish_point_clouds context); simpl; intuition congruence. }
  split; [apply create_point_cloud_nodelets_map|].
  split; [|split; [exact Hfilter|split; [exact Hiff|]]].
  - intros camera Hin. rewrite create_point_cloud_nodelets_map.
    split; [|split; reflexivity].
    apply (named_once context has_arm (spec_point_cloud_descriptor ns)
                      "point_cloud_xyzrgb_node_");
      [reflexivity | assumption].
  - split.
    + intros [d Hd]. now apply Hiff in Hd.
    + intro Hpolicy.
      exists (spec_point_cloud_descriptor (spot_name context) "frontleft").
      apply Hiff. split; [assumption|].
      rewrite create_point_cloud_nodelets_map. apply in_map.
      apply get_camera_sources_frontleft.
Qed.

(** The remappings of the hand camera's point-cloud node, for a robot with
    an arm named spot1. *)
Lemma point_cloud_descriptors_witness :
  let context :=
    context_of [("spot_name", "spot1"); ("has_arm", "true");
                ("publish_point_clouds", "true")] in
  In "hand" (get_camera_sources context has_arm_config)
  /\ named "point_cloud_xyzrgb_node_hand"
           (create_point_cloud_nodelets context "spot1" has_arm_config)
     = [ {| package := "depth_image_proc";
            plugin := "depth_image_proc::PointCloudXyzrgbNode";
            name := "point_cloud_xyzrgb_node_hand";
            namespace := "spot1";
            remappings :=
              [ ("rgb/camera_info", "camera/hand/camera_info");
                ("rgb/image_rect_color", "camera/hand/image");
                ("depth_registered/image_rect", "depth_registered/hand/image");
                ("points", "depth_registered/hand/points") ] |} ].
Proof.
  intro context.
  assert (Hin : In "hand" (get_camera_sources context has_arm_config))
    by (vm_compute; tauto).
  split; [exact Hin|].
  destruct (point_cloud_descriptors context "spot1" has_arm_config) as (_ & H & _).
  destruct (H "hand" Hin) as (Hnamed & _).
  exact Hnamed.
Defined.

(** ** The container *)

Lemma create_depth_registration_nodelets_length
    (context : LaunchContext) (ns : string) (has_arm : LaunchConfiguration) :
  List.length (create_depth_registration_nodelets context ns has_arm) =
    List.length (get_camera_sources context has_arm).
Proof. rewrite create_depth_registration_nodelets_map. apply length_map. Qed.

Lemma create_point_cloud_nodelets_length
    (context : LaunchContext) (ns : string) (has_arm : LaunchConfiguration) :
  List.length (create_point_cloud_nodelets context ns has_arm) =
    List.length (get_camera_sources context has_arm).
Proof. rewrite create_point_cloud_nodelets_map. apply length_map. Qed.

Lemma get_camera_sources_length
    (context : LaunchContext) (has_arm : LaunchConfiguration) :
  List.length (get_camera_sources context has_arm) =
    if has_arm_is_true context has_arm then 6 else 5.
Proof.
  unfold get_camera_sources. destruct (has_arm_is_true context has_arm); reflexivity.
Qed.

(** C7: the container's list is the output of the registration builder
    (nothing unless the mode is FROM_NODELETS) followed by the output of the
    point-cloud builder (nothing unless the policy is true).  It holds 12
    descriptors for FROM_NODELETS with point clouds and an arm, and 5 for
    FROM_SPOT with point clouds and no arm. *)
Theorem composable_node_descriptions_assembly (context : LaunchContext) :
  composable_node_descriptions_of context =
    (if DepthRegisteredMode_eqb (depth_registered_mode context) FROM_NODELETS
     then create_depth_registration_nodelets context (spot_name context) has_arm_config
     else [])
    ++ (if publish_point_clouds context
        then create_point_cloud_nodelets context (spot_name context) has_arm_config
        else [])
  /\ List.length (composable_node_descriptions_of context) =
       (if DepthRegisteredMode_eqb (depth_registered_mode context) FROM_NODELETS
        then List.length (get_camera_sources context has_arm_config) else 0)
       + (if publish_point_clouds context
          then List.length (get_camera_sources context has_arm_config) else 0)
  /\ (depth_registered_mode context = FROM_NODELETS ->
      publish_point_clouds context = true ->
      has_arm_is_true context has_arm_config = true ->
      List.length (composable_node_descriptions_of context) = 12)
  /\ (depth_registered_mode context = FROM_SPOT ->
      publish_point_clouds context = true ->
      has_arm_is_true context has_arm_config = false ->
      List.length (composable_node_descriptions_of context) = 5).
Proof.
  assert (Hlen :
    List.length (composable_node_descriptions_of context) =
      (if DepthRegisteredMode_eqb (depth_registered_mode context) FROM_NODELETS
       then List.length (get_camera_sources context has_arm_config) else 0)
      + (if publish_point_clouds context
         then List.length (get_camera_sources context has_arm_config) else 0)).
  { unfold composable_node_descriptions_of. rewrite length_app.
    destruct (DepthRegisteredMode_eqb (depth_registered_mode context) FROM_NODELETS),
             (publish_point_clouds context);
      rewrite ?create_depth_registration_nodelets_length,
              ?create_point_cloud_nodelets_length; reflexivity. }
  split; [reflexivity|]. split; [exact Hlen|].
  split; intros Hmode Hpolicy Harm; rewrite Hlen, Hmode, Hpolicy;
    rewrite get_camera_sources_length, Harm; reflexivity.
Qed.

(** The two launches the specification counts. *)
Lemma composable_node_descriptions_assembly_witness :
  let with_arm :=
    context_of [("depth_registered_mode", "from_nodelets");
                ("publish_point_clouds", "true"); ("has_arm", "true")] in
  let without_arm :=
    context_of [("depth_registered_mode", "from_spot");
                ("publish_point_clouds", "true"); ("has_arm", "false")] in
  (depth_registered_mode with_arm = FROM_NODELETS
   /\ publish_point_clouds with_arm = true
   /\ has_arm_is_true with_arm has_arm_config = true
   /\ List.length (composable_node_descriptions_of with_arm) = 12)
  /\ (depth_registered_mode without_arm = FROM_SPOT
      /\ publish_point_clouds without_arm = true
      /\ has_arm_is_true without_arm has_arm_config = false
      /\ List.length (composable_node_descriptions_of without_arm) = 5).
Proof.
  intros with_arm without_arm. split.
  - repeat (split; [reflexivity|]).
    destruct (composable_node_descriptions_assembly with_arm) as (_ & _ & H & _).
    apply H; reflexivity.
  - repeat (split; [reflexivity|]).
    destruct (composable_node_descriptions_assembly without_arm) as (_ & _ & _ & H).
    apply H; reflexivity.
Defined.

(** C10: in every context the names of the container's descriptors are
    pairwise different, every descriptor lies in the namespace [spot_name],
    and the registration and point-cloud sublists are the images of one and
    the same camera sequence, in its order, under register_node_<camera> and
    point_cloud_xyzrgb_node_<camera>. *)
Theorem composable_node_descriptions_invariants (context : LaunchContext) :
  NoDup (map name (composable_node_descriptions_of context))
  /\ Forall (fun d => namespace d = spot_name context)
            (composable_node_descriptions_of context)
  /\ NoDup (get_camera_sources context has_arm_config)
  /\ map name (create_depth_registration_nodelets
                 context (spot_name context) has_arm_config)
     = map (String.append "register_node_") (get_camera_sources context has_arm_config)
  /\ map name (create_point_cloud_nodelets
                 context (spot_name context) has_arm_config)
     = map (String.append "point_cloud_xyzrgb_node_")
           (get_camera_sources context has_arm_config)
  /\ composable_node_descriptions_of context =
       (if DepthRegisteredMode_eqb (depth_registered_mode context) FROM_NODELETS
        then map (register_node (spot_name context))
                 (get_camera_sources context has_arm_config)
        else [])
       ++ (if publish_point_clouds context
           then map (point_cloud_xyzrgb_node (spot_name context))
                    (get_camera_sources context has_arm_config)
           else []).
Proof.
  split; [|split; [|split; [|split; [|split]]]].
  - rewrite composable_node_descriptions_of_eq. unfold get_camera_sources.
    destruct (has_arm_is_true context has_arm_config),
             (DepthRegisteredMode_eqb (depth_registered_mode context) FROM_NODELETS),
             (publish_point_clouds context);
      apply distinct_NoDup; reflexivity.
  - rewrite composable_node_descriptions_of_eq. apply Forall_app. split.
    + destruct (DepthRegisteredMode_eqb (depth_registered_mode context) FROM_NODELETS);
        [|constructor].
      apply Forall_forall. intros d Hd. apply in_map_iff in Hd.
      destruct Hd as [camera [<- _]]. reflexivity.
    + destruct (publish_point_clouds context); [|constructor].
      apply Forall_forall. intros d Hd. apply in_map_iff in Hd.
      destruct Hd as [camera [<- _]]. reflexivity.
  - apply get_camera_sources_NoDup.
  - rewrite create_depth_registration_nodelets_map, map_map. reflexivity.
  - rewrite create_point_cloud_nodelets_map, map_map. reflexivity.
  - unfold composable_node_descriptions_of, create_depth_registration_nodelets,
      create_point_cloud_nodelets.
    rewrite !for_each_camera_map. reflexivity.
Qed.

(** ** The tf prefix *)

Lemma perform_default_tf_prefix (context : LaunchContext) (tf_prefix spot_name : string) :
  perform context (default_tf_prefix tf_prefix spot_name) =
    Some (if negb (Py.truthy tf_prefix) && Py.truthy spot_name
          then if Py.endswith_sep spot_name then spot_name
               else (spot_name ++ "/")%string
          else tf_prefix).
Proof.
  unfold default_tf_prefix.
  destruct (Py.truthy tf_prefix); [reflexivity|].
  destruct (Py.truthy spot_name) eqn:Hname; [|reflexivity].
  cbn -[Py.os_path_join]. now rewrite os_path_join_empty.
Qed.

(** C8, as the claim words it, fails: for a robot name that already ends
    with a slash the path join adds none, so the resolved prefix is the name
    itself and not the name followed by "/". *)
Lemma tf_prefix_counterexample :
  let context := context_of [("tf_prefix", ""); ("spot_name", "spot1/")] in
  perform_configuration context {| variable_name := "tf_prefix" |} = ""
  /\ spot_name context = "spot1/"
  /\ spot_name context <> ""
  /\ perform context (tf_prefix context) = Some "spot1/"
  /\ perform context (tf_prefix context) <> Some (spot_name context ++ "/")%string.
Proof.
  cbv zeta. repeat split; try reflexivity; discriminate.
Qed.

(** C8, amended: when [tf_prefix] is empty and [spot_name] is not, the
    resolved prefix is the path join of [spot_name] with the empty segment:
    [spot_name] followed by "/" when [spot_name] does not end with "/", and
    [spot_name] itself when it does.  In every other case (a non-empty
    [tf_prefix], or both empty) the given [tf_prefix] is used unchanged. *)
Theorem tf_prefix_default_rule (context : LaunchContext) :
  (perform_configuration context {| variable_name := "tf_prefix" |} = "" ->
   spot_name context <> "" ->
   perform context (tf_prefix context) =
     Some (Py.os_path_join (spot_name context) [""])
   /\ (Py.endswith_sep (spot_name context) = false ->
       perform context (tf_prefix context) = Some (spot_name context ++ "/")%string)
   /\ (Py.endswith_sep (spot_name context) = true ->
       perform context (tf_prefix context) = Some (spot_name context)))
  /\ (perform_configuration context {| variable_name := "tf_prefix" |} <> ""
      \/ spot_name context = "" ->
      tf_prefix context =
        TextSubstitution
          (perform_configuration context {| variable_name := "tf_prefix" |})
      /\ perform context (tf_prefix context) =
           Some (perform_configuration context {| variable_name := "tf_prefix" |})).
Proof.
  unfold tf_prefix. split.
  - intros Hprefix Hname. rewrite perform_default_tf_prefix.
    apply truthy_true_iff in Hname. rewrite Hprefix, Hname.
    cbn -[Py.os_path_join]. rewrite os_path_join_empty by assumption.
    split; [reflexivity|].
    split; intro Hsep; rewrite Hsep; reflexivity.
  - intro H. rewrite perform_default_tf_prefix. unfold default_tf_prefix.
    destruct H as [H|H].
    + apply truthy_true_iff in H. rewrite H. simpl. split; reflexivity.
    + apply truthy_false_iff in H. rewrite H, andb_false_r. split; reflexivity.
Qed.

(** The two launches the specification names: the default prefix of spot1,
    and a custom prefix that is kept. *)
Lemma tf_prefix_default_rule_witness :
  let spot1 := context_of [("tf_prefix", ""); ("spot_name", "spot1")] in
  let custom := context_of [("tf_prefix", "custom"); ("spot_name", "spot1")] in
  (perform_configuration spot1 {| variable_name := "tf_prefix" |} = ""
   /\ spot_name spot1 <> ""
   /\ perform spot1 (tf_prefix spot1) = Some "spot1/")
  /\ (perform_configuration custom {| variable_name := "tf_prefix" |} <> ""
      /\ perform custom (tf_prefix custom) = Some "custom").
Proof.
  intros spot1 custom. split.
  - split; [reflexivity|]. split; [discriminate|].
    destruct (tf_prefix_default_rule spot1) as (H & _).
    assert (Hname : spot_name spot1 <> "") by discriminate.
    destruct (H eq_refl Hname) as (_ & Hslash & _).
    exact (Hslash eq_refl).
  - split; [discriminate|].
    destruct (tf_prefix_default_rule custom) as (_ & H).
    assert (Hprefix :
      perform_configuration custom {| variable_name := "tf_prefix" |} <> "")
      by discriminate.
    destruct (H (or_introl Hprefix)) as (_ & Hperform).
    exact Hperform.
Defined.

(** ** [launch_setup] as a whole *)

(** When the description package is found, [launch_setup] adds four actions
    to the launch description: the driver with the parameters above, the
    state publisher, the RViz inclusion and the container with the
    descriptors above. *)
Lemma launch_setup_actions
    (context : LaunchContext) (ld : LaunchDescription) (pkg_share : string) :
  find_package_share context "spot_description" = Some pkg_share ->
  launch_setup context ld =
    Some (ld ++ [ Node "spot_driver" "spot_ros2" (Some "spot_ros2") "screen"
                       (spot_driver_params context) (spot_name context);
                  robot_state_publisher context pkg_share;
                  rviz context;
                  ComposableNodeContainer "container" (spot_name context)
                    "rclcpp_components" "component_container_mt" "screen"
                    (composable_node_descriptions_of context) ]).
Proof.
  intro Hfind. unfold launch_setup, add_action. rewrite Hfind.
  rewrite <- !app_assoc. reflexivity.
Qed.

Lemma launch_setup_fails (context : LaunchContext) (ld : LaunchDescription) :
  find_package_share context "spot_description" = None ->
  launch_setup context ld = None.
Proof. intro Hfind. unfold launch_setup. now rewrite Hfind. Qed.

(** ** How the parts of the description fit together *)

Lemma In_descriptions_iff (context : LaunchContext) (d : ComposableNode) :
  In d (composable_node_descriptions_of context) <->
  (depth_registered_mode context = FROM_NODELETS
   /\ In d (map (spec_register_descriptor (spot_name context))
                (get_camera_sources context has_arm_config)))
  \/ (publish_point_clouds context = true
      /\ In d (map (spec_point_cloud_descriptor (spot_name context))
                   (get_camera_sources context has_arm_config))).
Proof.
  rewrite composable_node_descriptions_of_eq, in_app_iff, <- DepthRegisteredMode_eqb_eq.
  destruct (DepthRegisteredMode_eqb (depth_registered_mode context) FROM_NODELETS),
           (publish_point_clouds context);
    simpl; intuition congruence.
Qed.

Lemma spot_driver_params_suppressed_iff (context : LaunchContext) :
  In publish_depth_registered_false (spot_driver_params context) <->
  depth_registered_mode context <> FROM_SPOT.
Proof.
  unfold spot_driver_params, publish_depth_registered_false, base_driver_params.
  destruct (depth_registered_mode context); simpl; split; intro H;
    try discriminate; try congruence; auto.
  destruct H as [H|[H|[]]]; discriminate H.
Qed.

(** X1: when registration runs on the host and point clouds are published,
    the container holds, for every camera of the sequence, the registration
    node and the point-cloud node, and they are wired to each other: the
    point-cloud node reads its registered depth image from the topic
    depth_registered/<camera>/image the registration node writes, and both
    read the colour camera's info from camera/<camera>/camera_info. *)
Theorem registration_feeds_point_cloud (context : LaunchContext) (camera : string) :
  In camera (get_camera_sources context has_arm_config) ->
  depth_registered_mode context = FROM_NODELETS ->
  publish_point_clouds context = true ->
  In (register_node (spot_name context) camera)
     (composable_node_descriptions_of context)
  /\ In (point_cloud_xyzrgb_node (spot_name context) camera)
        (composable_node_descriptions_of context)
  /\ assoc "depth_registered/image_rect"
           (remappings (register_node (spot_name context) camera))
     = Some ("depth_registered/" ++ camera ++ "/image")%string
  /\ assoc "depth_registered/image_rect"
           (remappings (point_cloud_xyzrgb_node (spot_name context) camera))
     = Some ("depth_registered/" ++ camera ++ "/image")%string
  /\ assoc "rgb/camera_info"
           (remappings (register_node (spot_name context) camera))
     = Some ("camera/" ++ camera ++ "/camera_info")%string
  /\ assoc "rgb/camera_info"
           (remappings (point_cloud_xyzrgb_node (spot_name context) camera))
     = Some ("camera/" ++ camera ++ "/camera_info")%string.
Proof.
  intros Hin Hmode Hpolicy.
  rewrite (register_node_spec context has_arm_config _ _ Hin).
  rewrite (point_cloud_xyzrgb_node_spec context has_arm_config _ _ Hin).
  split; [|split; [|repeat split]].
  - apply In_descriptions_iff. left. split; [assumption|]. now apply in_map.
  - apply In_descriptions_iff. right. split; [assumption|]. now apply in_map.
Qed.

Lemma registration_feeds_point_cloud_witness :
  let context := context_of [("publish_point_clouds", "true")] in
  In "back" (get_camera_sources context has_arm_config)
  /\ depth_registered_mode context = FROM_NODELETS
  /\ publish_point_clouds context = true
  /\ assoc "depth_registered/image_rect"
           (remappings (point_cloud_xyzrgb_node (spot_name context) "back"))
     = Some "depth_registered/back/image".
Proof.
  intro context.
  assert (Hin : In "back" (get_camera_sources context has_arm_config))
    by (vm_compute; tauto).
  split; [exact Hin|]. split; [reflexivity|]. split; [reflexivity|].
  destruct (registration_feeds_point_cloud context "back" Hin eq_refl eq_refl)
    as (_ & _ & _ & H & _).
  exact H.
Defined.

(** X2: registered depth has one source at most.  If the container holds a
    registration node, the driver is told [publish_depth_registered = false];
    if the driver is the source (FROM_SPOT), the container holds no
    registration node and the driver is not told so. *)
Theorem registration_source_exclusive (context : LaunchContext) :
  ((exists d, In d (composable_node_descriptions_of context)
              /\ kind d = Some RegisterDepth) ->
   In publish_depth_registered_false (spot_driver_params context))
  /\ (depth_registered_mode context = FROM_SPOT ->
      (forall d, In d (composable_node_descriptions_of context) ->
                 kind d <> Some RegisterDepth)
      /\ ~ In publish_depth_registered_false (spot_driver_params context)).
Proof.
  assert (Hreg : forall d, In d (composable_node_descriptions_of context) ->
                   kind d = Some RegisterDepth ->
                   depth_registered_mode context = FROM_NODELETS).
  { intros d Hin Hkind. apply In_descriptions_iff in Hin.
    destruct Hin as [[Hmode _]|[_ Hin]]; [assumption|].
    apply in_map_iff in Hin. destruct Hin as [camera [<- _]]. discriminate Hkind. }
  split.
  - intros [d [Hin Hkind]]. apply spot_driver_params_suppressed_iff.
    rewrite (Hreg d Hin Hkind). discriminate.
  - intro Hmode. split.
    + intros d Hin Hkind. rewrite (Hreg d Hin Hkind) in Hmode. discriminate.
    + rewrite spot_driver_params_suppressed_iff. tauto.
Qed.

Lemma registration_source_exclusive_witness :
  let on_host := context_of [] in
  let on_robot := context_of [("depth_registered_mode", "from_spot")] in
  In publish_depth_registered_false (spot_driver_params on_host)
  /\ depth_registered_mode on_robot = FROM_SPOT
  /\ ~ In publish_depth_registered_false (spot_driver_params on_robot).
Proof.
  intros on_host on_robot. split; [|split; [reflexivity|]].
  - destruct (registration_source_exclusive on_host) as (H & _). apply H.
    exists (spec_register_descriptor (spot_name on_host) "frontleft").
    split; [left|]; reflexivity.
  - destruct (registration_source_exclusive on_robot) as (_ & H).
    destruct (H eq_refl) as (_ & Hnot). exact Hnot.
Defined.

(** X3: point-cloud nodes never lack registered depth.  Whenever the policy
    is true, either the container also holds the registration node of every
    camera, or the driver is the source and its parameters are left as the
    configuration file gives them. *)
Theorem point_clouds_have_registered_depth (context : LaunchContext) :
  publish_point_clouds context = true ->
  (depth_registered_mode context = FROM_NODELETS
   /\ forall camera, In camera (get_camera_sources context has_arm_config) ->
        In (register_node (spot_name context) camera)
           (composable_node_descriptions_of context))
  \/ (depth_registered_mode context = FROM_SPOT
      /\ spot_driver_params context = base_driver_params context).
Proof.
  unfold publish_point_clouds. intro Hpolicy.
  destruct (depth_registered_mode context) eqn:Hmode; [discriminate Hpolicy| |].
  - right. split; [reflexivity|]. unfold spot_driver_params. now rewrite Hmode.
  - left. split; [reflexivity|]. intros camera Hin.
    rewrite (register_node_spec context has_arm_config _ _ Hin).
    apply In_descriptions_iff. left. split; [assumption|]. now apply in_map.
Qed.

Lemma point_clouds_have_registered_depth_witness :
  let context :=
    context_of [("depth_registered_mode", "from_spot"); ("publish_point_clouds", "True")] in
  publish_point_clouds context = true
  /\ ((depth_registered_mode context = FROM_NODELETS
       /\ forall camera, In camera (get_camera_sources context has_arm_config) ->
            In (register_node (spot_name context) camera)
               (composable_node_descriptions_of context))
      \/ (depth_registered_mode context = FROM_SPOT
          /\ spot_driver_params context = base_driver_params context)).
Proof.
  intro context. split; [reflexivity|].
  apply (point_clouds_have_registered_depth context). reflexivity.
Defined.

(** X4: an unrecognized mode disables the pipeline silently.  If the
    lower-cased [depth_registered_mode] argument is neither "from_spot" nor
    "from_nodelets", then whatever [publish_point_clouds] and [has_arm] say,
    the container holds no node and the driver is told
    [publish_depth_registered = false]. *)
Theorem unrecognized_mode_disables (context : LaunchContext) :
  Py.lower (perform_configuration context {| variable_name := "depth_registered_mode" |})
    <> "from_spot" ->
  Py.lower (perform_configuration context {| variable_name := "depth_registered_mode" |})
    <> "from_nodelets" ->
  depth_registered_mode context = DISABLE
  /\ publish_point_clouds context = false
  /\ composable_node_descriptions_of context = []
  /\ spot_driver_params context =
       base_driver_params context ++ [publish_depth_registered_false].
Proof.
  intros H1 H2.
  assert (Hmode : depth_registered_mode context = DISABLE).
  { unfold depth_registered_mode, resolve_mode.
    apply depth_registered_mode_of_string_cases. split; assumption. }
  unfold publish_point_clouds, composable_node_descriptions_of, publish_point_clouds,
    spot_driver_params.
  rewrite Hmode. repeat split.
Qed.

Lemma unrecognized_mode_disables_witness :
  let context :=
    context_of [("depth_registered_mode", "from-nodelets");
                ("publish_point_clouds", "true"); ("has_arm", "true")] in
  point_clouds_requested
    (perform_configuration context {| variable_name := "publish_point_clouds" |}) = true
  /\ composable_node_descriptions_of context = []
  /\ spot_driver_params context =
       base_driver_params context ++ [publish_depth_registered_false].
Proof.
  intro context. split; [reflexivity|].
  assert (H1 : Py.lower (perform_configuration context
                 {| variable_name := "depth_registered_mode" |}) <> "from_spot")
    by discriminate.
  assert (H2 : Py.lower (perform_configuration context
                 {| variable_name := "depth_registered_mode" |}) <> "from_nodelets")
    by discriminate.
  destruct (unrecognized_mode_disables context H1 H2) as (_ & _ & Hnil & Hparams).
  split; assumption.
Defined.

(** X5: the container is empty exactly when registration does not run on
    the host and the point-cloud policy is false: that is, under DISABLE, and
    under FROM_SPOT without a point-cloud request. *)
Theorem container_empty_iff (context : LaunchContext) :
  (composable_node_descriptions_of context = [] <->
     depth_registered_mode context <> FROM_NODELETS
     /\ publish_point_clouds context = false)
  /\ (composable_node_descriptions_of context = [] <->
        depth_registered_mode context = DISABLE
        \/ (depth_registered_mode context = FROM_SPOT
            /\ point_clouds_requested
                 (perform_configuration context
                    {| variable_name := "publish_point_clouds" |}) = false)).
Proof.
  rewrite composable_node_descriptions_of_eq.
  unfold publish_point_clouds, get_camera_sources.
  destruct (depth_registered_mode context),
           (point_clouds_requested _),
           (has_arm_is_true context has_arm_config);
    simpl; repeat split; intros;
    try discriminate; try tauto;
    try (match goal with
         | H : _ /\ _ |- _ => destruct H; congruence
         | H : _ \/ _ |- _ => destruct H as [H|[H ?]]; discriminate
         end).
Qed.

(** X6: the hand camera's nodes follow the arm.  The container names a
    registration node of the hand camera exactly when the robot has an arm
    and registration runs on the host, and a point-cloud node of the hand
    camera exactly when the robot has an arm and the policy is true. *)
Theorem hand_nodes_iff_arm (context : LaunchContext) :
  (In "hand" (get_camera_sources context has_arm_config) <->
     has_arm_is_true context has_arm_config = true)
  /\ (In "register_node_hand" (map name (composable_node_descriptions_of context)) <->
        has_arm_is_true context has_arm_config = true
        /\ depth_registered_mode context = FROM_NODELETS)
  /\ (In "point_cloud_xyzrgb_node_hand"
         (map name (composable_node_descriptions_of context)) <->
        has_arm_is_true context has_arm_config = true
        /\ publish_point_clouds context = true).
Proof.
  rewrite composable_node_descriptions_of_eq, <- DepthRegisteredMode_eqb_eq.
  unfold get_camera_sources.
  destruct (has_arm_is_true context has_arm_config),
           (DepthRegisteredMode_eqb (depth_registered_mode context) FROM_NODELETS),
           (publish_point_clouds context);
    simpl; repeat split; intros;
    try tauto;
    repeat match goal with
           | H : _ /\ _ |- _ => destruct H
           | H : _ \/ _ |- _ => destruct H
           | H : False |- _ => destruct H
           | H : _ = _ |- _ => discriminate H
           end.
Qed.

(** ** Topics *)

Lemma descriptions_cases (context : LaunchContext) (d : ComposableNode) :
  In d (composable_node_descriptions_of context) ->
  exists camera,
    In camera ["frontleft"; "frontright"; "left"; "right"; "back"; "hand"]
    /\ (d = spec_register_descriptor (spot_name context) camera
        \/ d = spec_point_cloud_descriptor (spot_name context) camera).
Proof.
  intro Hin. apply In_descriptions_iff in Hin.
  destruct Hin as [[_ Hin]|[_ Hin]]; apply in_map_iff in Hin;
    destruct Hin as [camera [<- Hcam]]; exists camera;
    (split; [now apply camera_cases in Hcam | auto]).
Qed.

(** X7: the shape of every node of the container.  It is a plugin of
    [depth_image_proc], either a RegisterNode with five remappings or a
    PointCloudXyzrgbNode with four; its internal names are pairwise
    different, and each external topic is a relative name (it neither starts
    nor ends with a slash), so it is resolved in the node's namespace. *)
Theorem descriptor_shape (context : LaunchContext) (d : ComposableNode) :
  In d (composable_node_descriptions_of context) ->
  package d = "depth_image_proc"
  /\ ((kind d = Some RegisterDepth /\ List.length (remappings d) = 5)
      \/ (kind d = Some PointCloudXYZRGB /\ List.length (remappings d) = 4))
  /\ NoDup (internal_names d)
  /\ Forall (fun topic => Py.startswith_sep topic = false
                          /\ Py.endswith_sep topic = false)
            (external_topics d).
Proof.
  intro Hin. apply descriptions_cases in Hin.
  destruct Hin as [camera [Hcam [->| ->]]]; simpl in Hcam;
    repeat (destruct Hcam as [<-|Hcam]; [|]); try destruct Hcam;
    (split; [reflexivity|]);
    (split; [(left; split; reflexivity) || (right; split; reflexivity)|]);
    (split; [apply distinct_NoDup; reflexivity|]);
    repeat constructor.
Qed.

Lemma descriptor_shape_witness :
  let context := context_of [("spot_name", "spot1")] in
  In (spec_register_descriptor "spot1" "left") (composable_node_descriptions_of context)
  /\ internal_names (spec_register_descriptor "spot1" "left")
     = ["depth/image_rect"; "depth/camera_info"; "rgb/camera_info";
        "depth_registered/image_rect"; "depth_registered/camera_info"]
  /\ NoDup (internal_names (spec_register_descriptor "spot1" "left")).
Proof.
  intro context.
  assert (Hin : In (spec_register_descriptor "spot1" "left")
                   (composable_node_descriptions_of context))
    by (vm_compute; tauto).
  split; [exact Hin|]. split; [reflexivity|].
  destruct (descriptor_shape context _ Hin) as (_ & _ & H & _).
  exact H.
Defined.

(** X8: no two remappings of the registration nodes target the same
    external topic, and no two remappings of the point-cloud nodes do: the
    nodes of different cameras never share a topic within a builder's
    output. *)
Theorem external_topics_distinct
    (context : LaunchContext) (ns : string) (has_arm : LaunchConfiguration) :
  NoDup (List.concat (map external_topics
                     (create_depth_registration_nodelets context ns has_arm)))
  /\ NoDup (List.concat (map external_topics
                        (create_point_cloud_nodelets context ns has_arm)))
  /\ List.length (List.concat (map external_topics
                     (create_depth_registration_nodelets context ns has_arm)))
     = 5 * List.length (get_camera_sources context has_arm)
  /\ List.length (List.concat (map external_topics
                     (create_point_cloud_nodelets context ns has_arm)))
     = 4 * List.length (get_camera_sources context has_arm).
Proof.
  rewrite create_depth_registration_nodelets_map, create_point_cloud_nodelets_map.
  unfold get_camera_sources.
  destruct (has_arm_is_true context has_arm);
    repeat split; try (apply distinct_NoDup); reflexivity.
Qed.

(** ** [launch_setup] and the launch description *)

(** X9: [launch_setup] only appends.  It fails exactly when the share
    directory of [spot_description] is not found, and then adds nothing;
    otherwise the description it returns is the given one followed by four
    actions that do not depend on the given one: the driver node, the state
    publisher, the RViz inclusion and the container, in this order. *)
Theorem launch_setup_appends (context : LaunchContext) (ld : LaunchDescription) :
  launch_setup context ld = option_map (app ld) (launch_setup context [])
  /\ (launch_setup context ld = None <->
        find_package_share context "spot_description" = None)
  /\ launch_setup context [] =
       option_map
         (fun pkg_share =>
            [spot_driver_node context; robot_state_publisher context pkg_share;
             rviz context; container context])
         (find_package_share context "spot_description").
Proof.
  unfold launch_setup, add_action.
  destruct (find_package_share context "spot_description") as [pkg_share|]; simpl.
  - rewrite <- !app_assoc. repeat split; intro H; discriminate H.
  - repeat split; intro H; reflexivity.
Qed.

Lemma launch_setup_added_namespaces
    (context : LaunchContext) (pkg_share : string) (a : Action) :
  In a [spot_driver_node context; robot_state_publisher context pkg_share;
        rviz context; container context] ->
  Forall (fun ns => ns = spot_name context) (action_namespaces a).
Proof.
  intros [<-|[<-|[<-|[<-|[]]]]]; simpl; repeat constructor.
  apply Forall_forall. intros ns Hns. apply in_map_iff in Hns.
  destruct Hns as [d [<- Hd]].
  apply descriptions_cases in Hd. destruct Hd as [camera [_ [->| ->]]]; reflexivity.
Qed.

(** X10: one namespace.  Every action a successful [launch_setup] adds to
    an empty description lives in the namespace [spot_name]: the driver
    node, the state publisher, the container and each composable node in it;
    and the RViz inclusion is handed the same [spot_name]. *)
Theorem launch_setup_one_namespace
    (context : LaunchContext) (added : LaunchDescription) :
  launch_setup context [] = Some added ->
  Forall (fun a => Forall (fun ns => ns = spot_name context) (action_namespaces a))
         added
  /\ Forall (fun a => match a with
                      | IncludeLaunchDescription _ launch_arguments _ =>
                          assoc "spot_name" launch_arguments = Some (spot_name context)
                      | _ => True
                      end) added.
Proof.
  unfold launch_setup, add_action.
  destruct (find_package_share context "spot_description") as [pkg_share|];
    [|discriminate].
  simpl. intro H. injection H as <-. split.
  - apply Forall_forall. intros a Ha.
    now apply launch_setup_added_namespaces with pkg_share.
  - repeat constructor.
Qed.

Lemma launch_setup_one_namespace_witness :
  let context := context_of [("spot_name", "spot1"); ("publish_point_clouds", "true")] in
  exists added,
    launch_setup context [] = Some added
    /\ List.length added = 4
    /\ Forall (fun a => Forall (fun ns => ns = "spot1") (action_namespaces a)) added.
Proof.
  intro context.
  destruct (launch_setup context []) as [added|] eqn:Hsetup; [|discriminate Hsetup].
  exists added. split; [reflexivity|].
  split; [injection Hsetup as <-; reflexivity|].
  destruct (launch_setup_one_namespace context added Hsetup) as (H & _).
  exact H.
Defined.

Lemma declared_configuration
    (c1 c2 : LaunchContext) (key : string) :
  (forall k, In k (map argument_name launch_args) ->
             launch_configurations c1 k = launch_configurations c2 k) ->
  In key (map argument_name launch_args) ->
  perform_configuration c1 {| variable_name := key |}
  = perform_configuration c2 {| variable_name := key |}.
Proof. intros H Hin. unfold perform_configuration. simpl. now apply H. Qed.

(** X11: [launch_setup] reads declared arguments only.  The configurations
    it creates are exactly the eight arguments [generate_launch_description]
    declares, each declared once; and two contexts that agree on these eight
    values and on the share directory of [spot_description] give the same
    launch description, whatever else they hold. *)
Theorem launch_setup_reads_declared_arguments
    (c1 c2 : LaunchContext) (ld : LaunchDescription) :
  (forall key, In key launch_setup_configurations <->
               In key (map argument_name launch_args))
  /\ NoDup (map argument_name launch_args)
  /\ ((forall key, In key (map argument_name launch_args) ->
                   launch_configurations c1 key = launch_configurations c2 key) ->
      find_package_share c1 "spot_description"
      = find_package_share c2 "spot_description" ->
      launch_setup c1 ld = launch_setup c2 ld).
Proof.
  split; [|split].
  - intro key. unfold launch_setup_configurations. simpl. tauto.
  - apply distinct_NoDup. reflexivity.
  - intros Hsame Hfind.
    assert (E : forall key, In key (map argument_name launch_args) ->
                  perform_configuration c1 {| variable_name := key |}
                  = perform_configuration c2 {| variable_name := key |})
      by (intros key Hin; now apply declared_configuration).
    assert (Ename : spot_name c1 = spot_name c2)
      by (apply E; simpl; tauto).
    assert (Earm : perform_configuration c1 has_arm_config
                   = perform_configuration c2 has_arm_config)
      by (apply E; simpl; tauto).
    assert (Emode : depth_registered_mode c1 = depth_registered_mode c2).
    { unfold depth_registered_mode. f_equal. apply E. simpl. tauto. }
    assert (Epolicy : publish_point_clouds c1 = publish_point_clouds c2).
    { unfold publish_point_clouds. rewrite Emode. f_equal. f_equal.
      apply E. simpl. tauto. }
    assert (Ecams : get_camera_sources c1 has_arm_config
                    = get_camera_sources c2 has_arm_config).
    { unfold get_camera_sources, has_arm_is_true. now rewrite Earm. }
    assert (Etf : tf_prefix c1 = tf_prefix c2).
    { unfold tf_prefix. rewrite Ename. f_equal. apply E. simpl. tauto. }
    assert (Errviz : perform_configuration c1 {| variable_name := "rviz_config_file" |}
                     = perform_configuration c2 {| variable_name := "rviz_config_file" |})
      by (apply E; simpl; tauto).
    unfold launch_setup. rewrite Hfind.
    destruct (find_package_share c2 "spot_description") as [pkg_share|];
      [|reflexivity].
    unfold spot_driver_node, robot_state_publisher, rviz, container,
      robot_description, spot_driver_params, base_driver_params,
      composable_node_descriptions_of,
      create_depth_registration_nodelets, create_point_cloud_nodelets.
    rewrite Ename, Emode, Epolicy, Ecams, Etf, Errviz. reflexivity.
Qed.

(** A context that differs from [context_of []] outside the declared
    arguments: xacro is not installed, and an undeclared configuration is
    set. *)
Lemma launch_setup_reads_declared_arguments_witness :
  let c1 := context_of [] in
  let c2 := {| launch_configurations :=
                 fun key => if key =? "verbose" then "yes"
                            else launch_configurations c1 key;
               which := fun _ => None;
               find_package_share := find_package_share c1 |} in
  launch_configurations c1 "verbose" <> launch_configurations c2 "verbose"
  /\ which c1 "xacro" <> which c2 "xacro"
  /\ launch_setup c1 [] = launch_setup c2 [].
Proof.
  intros c1 c2. split; [discriminate|]. split; [discriminate|].
  destruct (launch_setup_reads_declared_arguments c1 c2 []) as (_ & _ & H).
  apply H; [|reflexivity].
  intros key Hin. simpl in Hin.
  repeat (destruct Hin as [<-|Hin]; [reflexivity|]). destruct Hin.
Defined.

Lemma configurations_of_default (given : list (string * string)) (key : string) :
  assoc key given = None ->
  configurations_of given key =
    match assoc key (map (fun a => (argument_name a, default_value a)) launch_args) with
    | Some d => d
    | None => ""
    end.
Proof. intro H. unfold configurations_of. now rewrite H. Qed.

(** X12: the default pipeline.  A launch that sets none of
    [depth_registered_mode], [publish_point_clouds] and [has_arm] registers
    depth on the host for the five body cameras and nothing else: the
    container holds their five registration nodes, no point-cloud node, and
    the driver is told [publish_depth_registered = false]. *)
Theorem default_pipeline (given : list (string * string)) :
  assoc "depth_registered_mode" given = None ->
  assoc "publish_point_clouds" given = None ->
  assoc "has_arm" given = None ->
  depth_registered_mode (context_of given) = FROM_NODELETS
  /\ publish_point_clouds (context_of given) = false
  /\ composable_node_descriptions_of (context_of given) =
       map (spec_register_descriptor (spot_name (context_of given)))
           ["frontleft"; "frontright"; "left"; "right"; "back"]
  /\ spot_driver_params (context_of given) =
       base_driver_params (context_of given) ++ [publish_depth_registered_false].
Proof.
  intros Hmode Hcloud Harm.
  assert (Emode : depth_registered_mode (context_of given) = FROM_NODELETS).
  { unfold depth_registered_mode, perform_configuration. simpl.
    rewrite configurations_of_default by assumption. reflexivity. }
  assert (Epolicy : publish_point_clouds (context_of given) = false).
  { unfold publish_point_clouds, perform_configuration. simpl.
    rewrite Emode, configurations_of_default by assumption. reflexivity. }
  assert (Ecams : get_camera_sources (context_of given) has_arm_config
                  = ["frontleft"; "frontright"; "left"; "right"; "back"]).
  { unfold get_camera_sources, has_arm_is_true, perform_configuration. simpl.
    rewrite configurations_of_default by assumption. reflexivity. }
  split; [assumption|]. split; [assumption|]. split.
  - rewrite composable_node_descriptions_of_eq, Emode, Epolicy, Ecams.
    simpl. rewrite ?app_nil_r. reflexivity.
  - unfold spot_driver_params. now rewrite Emode.
Qed.

Lemma default_pipeline_witness :
  let given := [("spot_name", "spot1"); ("launch_rviz", "True")] in
  map name (composable_node_descriptions_of (context_of given)) =
    ["register_node_frontleft"; "register_node_frontright"; "register_node_left";
     "register_node_right"; "register_node_back"]
  /\ spot_driver_params (context_of given) =
       base_driver_params (context_of given) ++ [publish_depth_registered_false].
Proof.
  intro given.
  destruct (default_pipeline given eq_refl eq_refl eq_refl) as (_ & _ & Hnodes & Hparams).
  split; [rewrite Hnodes; reflexivity | exact Hparams].
Defined.

(** ** The robot description *)

Lemma endswith_sep_append_sep (s : string) : Py.endswith_sep (s ++ "/") = true.
Proof.
  induction s as [|c s IH]; [reflexivity|].
  simpl. destruct (s ++ "/")%string eqn:E; [|exact IH].
  destruct s; discriminate E.
Qed.

Lemma prefix_append (s t : string) : String.prefix s (s ++ t) = true.
Proof.
  induction s as [|c s IH]; simpl; [now destruct t|].
  destruct (ascii_dec c c); [assumption | congruence].
Qed.

Lemma prefix_refl (s : string) : String.prefix s s = true.
Proof. rewrite <- (append_empty_r s) at 2. apply prefix_append. Qed.

Lemma sequence_texts (context : LaunchContext) (texts : list string) :
  Py.sequence (map (perform context) (map TextSubstitution texts)) = Some texts.
Proof.
  induction texts as [|t texts IH]; simpl; [reflexivity | now rewrite IH].
Qed.

(** Joining plain strings with a [PathJoinSubstitution] never fails and does
    not look at the context: it is [path_join], as the builders use it. *)
Lemma perform_path_join_texts (context : LaunchContext) (a : string) (p : list string) :
  perform context (PathJoinSubstitution (map TextSubstitution (a :: p)))
  = Some (path_join (a :: p)).
Proof.
  cbn -[Py.os_path_join]. now rewrite sequence_texts.
Qed.

(** X13: the frame prefix handed to xacro.  Performing [tf_prefix] never
    fails.  The result is empty exactly when both [tf_prefix] and
    [spot_name] are empty; and when it is derived from a non-empty
    [spot_name], it starts with that name and ends with a slash. *)
Theorem tf_prefix_resolved_shape (context : LaunchContext) :
  exists resolved,
    perform context (tf_prefix context) = Some resolved
    /\ (resolved = "" <->
          perform_configuration context {| variable_name := "tf_prefix" |} = ""
          /\ spot_name context = "")
    /\ (perform_configuration context {| variable_name := "tf_prefix" |} = "" ->
        spot_name context <> "" ->
        String.prefix (spot_name context) resolved = true
        /\ Py.endswith_sep resolved = true).
Proof.
  unfold tf_prefix. rewrite perform_default_tf_prefix.
  eexists. split; [reflexivity|].
  destruct (perform_configuration context {| variable_name := "tf_prefix" |})
    as [|c given]; [destruct (spot_name context) as [|c name]|];
    cbn [Py.truthy negb andb].
  - split; [tauto|]. intros _ H. congruence.
  - destruct (Py.endswith_sep (String c name)) eqn:Hsep.
    + split; [split; [intro H; discriminate H | intros [_ H]; discriminate H]|].
      intros _ _. split; [apply prefix_refl | exact Hsep].
    + split; [split; [intro H; discriminate H | intros [_ H]; discriminate H]|].
      intros _ _. split.
      * apply (prefix_append (String c name) "/").
      * apply (endswith_sep_append_sep (String c name)).
  - split; [split; [intro H; discriminate H | intros [H _]; discriminate H]|].
    intro H. discriminate H.
Qed.

Lemma tf_prefix_resolved_shape_witness :
  let context := context_of [("spot_name", "robots/spot1")] in
  perform_configuration context {| variable_name := "tf_prefix" |} = ""
  /\ spot_name context <> ""
  /\ exists resolved,
       perform context (tf_prefix context) = Some resolved
       /\ Py.endswith_sep resolved = true.
Proof.
  intro context. split; [reflexivity|].
  assert (Hname : spot_name context <> "") by discriminate.
  split; [exact Hname|].
  destruct (tf_prefix_resolved_shape context) as (resolved & Hperform & _ & H).
  exists resolved. split; [exact Hperform|].
  destruct (H eq_refl Hname) as (_ & Hsep). exact Hsep.
Defined.

(** X14: the text of the xacro command line.  The substitutions of the
    [robot_description] command, performed and concatenated, give a text
    exactly when the xacro executable is found, and the text then reads:
    the executable, the path of spot.urdf.xacro under the urdf directory of
    the description package, [arm:=] with the [has_arm] argument as given
    (not its truth value), and [tf_prefix:=] with the resolved prefix, each
    followed by one space.  Splitting this text and running xacro is the
    launch system's part and is not described here. *)
Theorem robot_description_command_line
    (context : LaunchContext) (pkg_share : string) :
  perform_substitutions context
    (command_substitutions (robot_description context pkg_share))
  = match which context "xacro", perform context (tf_prefix context) with
    | Some xacro, Some resolved =>
        Some (xacro ++ " "
              ++ Py.os_path_join pkg_share ["urdf"; "spot.urdf.xacro"] ++ " "
              ++ "arm:=" ++ perform_configuration context has_arm_config ++ " "
              ++ "tf_prefix:=" ++ resolved ++ " ")%string
    | _, _ => None
    end
  /\ (perform_substitutions context
        (command_substitutions (robot_description context pkg_share)) = None
      <-> which context "xacro" = None).
Proof.
  assert (Hcmd :
    perform_substitutions context
      (command_substitutions (robot_description context pkg_share))
    = match which context "xacro", perform context (tf_prefix context) with
      | Some xacro, Some resolved =>
          Some (xacro ++ " "
                ++ Py.os_path_join pkg_share ["urdf"; "spot.urdf.xacro"] ++ " "
                ++ "arm:=" ++ perform_configuration context has_arm_config ++ " "
                ++ "tf_prefix:=" ++ resolved ++ " ")%string
      | _, _ => None
      end).
  { unfold perform_substitutions, robot_description, command_substitutions.
    cbn -[Py.os_path_join tf_prefix perform_configuration].
    destruct (which context "xacro") as [xacro|]; [|reflexivity].
    cbn -[Py.os_path_join tf_prefix perform_configuration].
    unfold tf_prefix. rewrite perform_default_tf_prefix.
    reflexivity. }
  split; [exact Hcmd|].
  rewrite Hcmd.
  unfold tf_prefix. rewrite perform_default_tf_prefix.
  destruct (which context "xacro"); split; intro H; congruence.
Qed.
